(** * MojoSpy: a shallow embedding of src/js/MojoSpy.js

    The JavaScript values the spy handles, the object heap holding the
    spied-upon object, the [MojoSpy] instance with its public fields, the
    constructor, the interception closure [spy], and the prototype methods
    [reset], [clear], [on], [off], [retire] and [wasCalled]. *)

From Stdlib Require Import ZArith.
From stdpp Require Import gmap strings list.

Local Open Scope string_scope.
Local Open Scope list_scope.

(** ** JavaScript values *)

(** Heap addresses of plain objects. *)
Definition loc := positive.

(** Numbers: the integers and the one value that is not strictly equal to
    itself.  (Both zeros of JavaScript are one zero here; they are [===] and
    both falsy.) *)
Inductive number :=
  | NaN
  | Finite (z : Z).

(** Function objects, compared by identity.  [Host id] is a function of the
    program under test.  [SpyClosure method] is the closure [spy] that the
    constructor creates; it captures the local variable [method] (and [self],
    the one instance a [world] follows). *)
Inductive callable :=
  | Host (id : nat)
  | SpyClosure (method : callable).

Inductive value :=
  | VUndefined
  | VNull
  | VBool (b : bool)
  | VNumber (n : number)
  | VString (s : string)
  | VObject (l : loc)
  | VFunction (f : callable).

#[global] Instance number_eq_dec : EqDecision number.
Proof. solve_decision. Defined.

#[global] Instance callable_eq_dec : EqDecision callable.
Proof. solve_decision. Defined.

#[global] Instance value_eq_dec : EqDecision value.
Proof. solve_decision. Defined.

(** The [typeof] operator. *)
Definition typeof (v : value) : string :=
  match v with
  | VUndefined => "undefined"
  | VNull => "object"
  | VBool _ => "boolean"
  | VNumber _ => "number"
  | VString _ => "string"
  | VObject _ => "object"
  | VFunction _ => "function"
  end.

(** Truthiness, as tested by [if (...)] and [&&]. *)
Definition to_boolean (v : value) : bool :=
  match v with
  | VUndefined | VNull => false
  | VBool b => b
  | VNumber NaN => false
  | VNumber (Finite z) => negb (z =? 0)%Z
  | VString s => negb (String.eqb s "")
  | VObject _ | VFunction _ => true
  end.

(** The [===] operator: no coercion, [NaN] differs from itself, objects and
    functions are compared by identity. *)
Definition strict_equals (a b : value) : bool :=
  match a, b with
  | VUndefined, VUndefined => true
  | VNull, VNull => true
  | VBool x, VBool y => bool_decide (x = y)
  | VNumber (Finite x), VNumber (Finite y) => (x =? y)%Z
  | VString x, VString y => String.eqb x y
  | VObject x, VObject y => bool_decide (x = y)
  | VFunction f, VFunction g => bool_decide (f = g)
  | _, _ => false
  end.

(** How a call ends: with a returned value or with a thrown one. *)
Inductive completion :=
  | Normal (v : value)
  | Throw (e : value).

(** ** The heap of plain objects *)

(** [object[name]] on the objects of this model, which hold their members
    as own data properties (no prototype chain is followed): a missing
    property reads as [undefined]. *)
Definition get_property (h : gmap loc (gmap string value)) (l : loc)
    (name : string) : value :=
  match h !! l with
  | Some o => default VUndefined (o !! name)
  | None => VUndefined
  end.

(** [object[name] = v] on an own data property. *)
Definition set_property (h : gmap loc (gmap string value)) (l : loc)
    (name : string) (v : value) : gmap loc (gmap string value) :=
  alter (fun o => <[name := v]> o) l h.

(** ** The spy instance *)

(** The fields of a [MojoSpy] instance.  [callHistory] is an array of
    argument arrays; the instance's own code only ever assigns [[]] to it
    and pushes onto it. *)
Record MojoSpyObject := mkSpy {
  object : loc;
  methodName : string;
  method : value;
  isRecording : value;
  callThru : value;
  callHistory : list (list value)
}.

(** The state a call can touch: the heap and the spy instance. *)
Record world := mkWorld {
  heap : gmap loc (gmap string value);
  self : MojoSpyObject
}.

(** *** Prototype methods that only touch the instance *)

(** [on: function () { this.isRecording = true; }] *)
Definition on (this : MojoSpyObject) : MojoSpyObject :=
  mkSpy (object this) (methodName this) (method this)
        (VBool true) (callThru this) (callHistory this).

(** [off: function () { this.isRecording = false; }] *)
Definition off (this : MojoSpyObject) : MojoSpyObject :=
  mkSpy (object this) (methodName this) (method this)
        (VBool false) (callThru this) (callHistory this).

(** [clear: function () { this.callHistory = []; }] *)
Definition clear (this : MojoSpyObject) : MojoSpyObject :=
  mkSpy (object this) (methodName this) (method this)
        (isRecording this) (callThru this) [].

(** The assignment [spy.callThru = v]. *)
Definition set_callThru (v : value) (this : MojoSpyObject) : MojoSpyObject :=
  mkSpy (object this) (methodName this) (method this)
        (isRecording this) v (callHistory this).

(** [reset: function () { this.on(); this.callThru = false; this.clear(); }] *)
Definition reset (this : MojoSpyObject) : MojoSpyObject :=
  clear (set_callThru (VBool false) (on this)).

(** [self.callHistory.push(args)] *)
Definition push_history (args : list value) (this : MojoSpyObject)
    : MojoSpyObject :=
  mkSpy (object this) (methodName this) (method this)
        (isRecording this) (callThru this) (callHistory this ++ [args]).

(** *** [retire]

    [if (this.object && this.methodName && this.method) {
       this.object[this.methodName] = this.method; this.method = null; }] *)
Definition retire (w : world) : world :=
  let this := self w in
  if to_boolean (VObject (object this))
     && to_boolean (VString (methodName this))
     && to_boolean (method this)
  then
    mkWorld (set_property (heap w) (object this) (methodName this) (method this))
            (mkSpy (object this) (methodName this) VNull
                   (isRecording this) (callThru this) (callHistory this))
  else w.

(** *** [wasCalled] *)

(** Array indexing: out of range reads as [undefined]. *)
Definition index (a : list value) (i : nat) : value :=
  default VUndefined (a !! i).

(** The [for] loop of the callback, started at index [i] with [n] indices
    left to visit: [false] at the first [callArgs[i] !== args[i]], [true]
    when the loop runs to its end. *)
Fixpoint wasCalled_loop (callArgs args : list value) (n i : nat) : bool :=
  match n with
  | O => true
  | S n' =>
      if negb (strict_equals (index callArgs i) (index args i)) then false
      else wasCalled_loop callArgs args n' (S i)
  end.

(** The callback given to [some]: it returns [undefined] (no [return] is
    reached) when the lengths differ. *)
Definition wasCalled_callback (args callArgs : list value) : value :=
  if (length callArgs =? length args)%nat then
    VBool (wasCalled_loop callArgs args (length args) 0)
  else VUndefined.

(** [Array.prototype.some]: is the callback's result truthy on some
    element, visiting them in order. *)
Fixpoint some {A} (f : A -> value) (a : list A) : bool :=
  match a with
  | [] => false
  | x :: a' => if to_boolean (f x) then true else some f a'
  end.

(** [wasCalled], given its [arguments]. *)
Definition wasCalled (arguments : list value) (this : MojoSpyObject) : bool :=
  if to_boolean (VNumber (Finite (Z.of_nat (length arguments)))) then
    let args := arguments in
    some (wasCalled_callback args) (callHistory this)
  else (0 <? length (callHistory this))%nat.

(** ** The constructor *)

(** What [new MojoSpy(object, methodName)] leaves behind: a world with the
    new instance, or a thrown value and the heap as it then is. *)
Inductive construction :=
  | Constructed (w : world)
  | Failed (e : value) (h : gmap loc (gmap string value)).

Definition MojoSpy (object : loc) (methodName : string)
    (h : gmap loc (gmap string value)) : construction :=
  let method := get_property h object methodName in
  match method with
  | VFunction m =>
      (* typeof method === 'function' *)
      let spy := VFunction (SpyClosure m) in
      let h' := set_property h object methodName spy in
      (* this.object, this.methodName, this.method; the other fields do
         not exist until reset() assigns them *)
      let this := mkSpy object methodName method VUndefined VUndefined [] in
      Constructed (mkWorld h' (reset this))
  | _ =>
      (* typeof method !== 'function' *)
      Failed (VString "Cannot spy on a non-function!") h
  end.

(** ** The interception closure *)

(** One call made through [Function.prototype.apply]: the function, the
    receiver and the argument list. *)
Record invocation := mkInvocation {
  callee : callable;
  receiver : value;
  passed : list value
}.

Section Interception.

(** What calling a function of the running program does: given the
    receiver and the arguments it completes and leaves a world behind.
    It may do anything to the heap and to the spy instance. *)
Variable apply : callable -> value -> list value -> world -> completion * world.

(** [f.apply(this, args)], with the call noted in a log that the callee
    cannot reach. *)
Definition invoke (f : callable) (this : value) (args : list value)
    (w : world) : list invocation * completion * world :=
  let '(c, w') := apply f this args w in
  ([mkInvocation f this args], c, w').

(** The state in which the closure dispatches:
    [if (self.isRecording) { self.callHistory.push(args); }] *)
Definition record (args : list value) (w : world) : world :=
  if to_boolean (isRecording (self w))
  then mkWorld (heap w) (push_history args (self w))
  else w.

(** The function chosen by
    [typeof self.callThru === 'function' ? self.callThru : method]. *)
Definition target_of (callThru : value) (method : callable) : callable :=
  match callThru with
  | VFunction f => f
  | _ => method
  end.

(** [function spy() { ... }], the closure over [self] and [method],
    called on receiver [this] with [arguments].  It has no [return]
    statement: when it completes normally its value is [undefined]. *)
Definition spy (method : callable) (this : value) (arguments : list value)
    (w : world) : list invocation * completion * world :=
  let args := arguments in   (* Array.prototype.slice.call(arguments) *)
  let w1 := record args w in
  if to_boolean (callThru (self w1)) then
    let callThru := target_of (callThru (self w1)) method in
    let '(log, c, w2) := invoke callThru this args w1 in
    match c with
    | Normal _ => (log, Normal VUndefined, w2)
    | Throw e => (log, Throw e, w2)
    end
  else ([], Normal VUndefined, w1).

(** A call site [receiver[methodName](...)] on the spied-upon object:
    it calls whatever the slot holds at that moment. *)
Definition call_member (this : value) (arguments : list value) (w : world)
    : list invocation * completion * world :=
  match get_property (heap w) (object (self w)) (methodName (self w)) with
  | VFunction (SpyClosure method) => spy method this arguments w
  | VFunction (Host id) =>
      let '(c, w') := apply (Host id) this arguments w in ([], c, w')
  | _ => ([], Throw (VString "TypeError: not a function"), w)
  end.

(** What a test does with an installed spy, one step at a time. *)
Inductive op :=
  | OpCall (method : callable) (this : value) (arguments : list value)
  | OpOn
  | OpOff
  | OpClear
  | OpReset
  | OpSetCallThru (v : value)
  | OpRetire.

Definition exec (o : op) (w : world) : completion * world :=
  match o with
  | OpCall method this arguments =>
      let '(_, c, w') := spy method this arguments w in (c, w')
  | OpOn => (Normal VUndefined, mkWorld (heap w) (on (self w)))
  | OpOff => (Normal VUndefined, mkWorld (heap w) (off (self w)))
  | OpClear => (Normal VUndefined, mkWorld (heap w) (clear (self w)))
  | OpReset => (Normal VUndefined, mkWorld (heap w) (reset (self w)))
  | OpSetCallThru v => (Normal VUndefined, mkWorld (heap w) (set_callThru v (self w)))
  | OpRetire => (Normal VUndefined, retire w)
  end.

(** A sequence of steps, each run in the world the previous one left
    (a thrown error ends that step only: the test goes on). *)
Fixpoint run (os : list op) (w : world) : world :=
  match os with
  | [] => w
  | o :: os' => run os' (snd (exec o w))
  end.

End Interception.

(** ** The history a test expects *)

(** The functions the closure forwards to leave the spy's recording flag
    and history alone (they may do anything else). *)
Definition keeps_history
    (apply : callable -> value -> list value -> world -> completion * world)
    : Prop :=
  forall f this args w,
    isRecording (self (apply f this args w).2) = isRecording (self w) /\
    callHistory (self (apply f this args w).2) = callHistory (self w).

(** The history as the specification words it: one entry per intercepted
    call while recording is on, none while it is off, emptied by a clear or
    a reset. *)
Fixpoint history_spec (os : list op) (recording : bool)
    (hist : list (list value)) : list (list value) :=
  match os with
  | [] => hist
  | OpCall _ _ args :: os' =>
      history_spec os' recording (if recording then hist ++ [args] else hist)
  | OpOn :: os' => history_spec os' true hist
  | OpOff :: os' => history_spec os' false hist
  | OpClear :: os' => history_spec os' recording []
  | OpReset :: os' => history_spec os' true []
  | OpSetCallThru _ :: os' => history_spec os' recording hist
  | OpRetire :: os' => history_spec os' recording hist
  end.

(** ** A concrete test bed, after test/index.js *)

Definition demo_object : loc := 1%positive.

(** [obj = { method: func, count: 7 }] with [func] the host function 0. *)
Definition demo_heap : gmap loc (gmap string value) :=
  {[ demo_object := {[ "method" := VFunction (Host 0);
                       "count" := VNumber (Finite 7) ]} ]}.

(** The host functions of the test bed: function 0 (the spied-upon
    method) notes its first argument in [methodArgs] and returns 42;
    function 1 (a mock) notes it in [calledMock]; function 2 throws;
    function 3 (a mock with a call-through of its own) notes it in
    [calledMock] and then does [spy.method.apply(this, arguments)];
    every other function does nothing. *)
Definition demo_apply (f : callable) (this : value) (args : list value)
    (w : world) : completion * world :=
  match f with
  | Host 0 =>
      (Normal (VNumber (Finite 42)),
       mkWorld (set_property (heap w) demo_object "methodArgs" (index args 0))
               (self w))
  | Host 1 =>
      (Normal (VString "mocked"),
       mkWorld (set_property (heap w) demo_object "calledMock" (index args 0))
               (self w))
  | Host 2 => (Throw (VString "boom"), w)
  | Host 3 =>
      (Normal VUndefined,
       mkWorld (set_property
                  (set_property (heap w) demo_object "calledMock" (index args 0))
                  demo_object "methodArgs" (index args 0))
               (self w))
  | _ => (Normal VUndefined, w)
  end.

Definition num (z : Z) : value := VNumber (Finite z).

(** The world right after [spy = new Spy(obj, 'method')]. *)
Definition demo_world : world :=
  mkWorld (<[demo_object := {[ "method" := VFunction (SpyClosure (Host 0));
                              "count" := num 7 ]}]> demo_heap)
          (mkSpy demo_object "method" (VFunction (Host 0))
                 (VBool true) (VBool false) []).

(** [obj = { '': func }]: a method under the empty name. *)
Definition nameless_heap : gmap loc (gmap string value) :=
  {[ demo_object := {[ "" := VFunction (Host 0) ]} ]}.

(** ** The synonym and the kinds of step *)

(** [MojoSpy.prototype.close = MojoSpy.prototype.retire] *)
Definition close : world -> world := retire.

(** The steps that are calls of the instance's own methods or the
    assignment to [callThru]: everything but a call of the closure. *)
Definition control_op (o : op) : bool :=
  match o with
  | OpCall _ _ _ => false
  | _ => true
  end.

(** The steps that only set flags or empty the history. *)
Definition flag_op (o : op) : bool :=
  match o with
  | OpOn | OpOff | OpClear | OpReset | OpSetCallThru _ => true
  | OpCall _ _ _ | OpRetire => false
  end.

(** * Properties *)

(** ** Basic facts about values *)

Lemma typeof_function (v : value) :
  typeof v = "function" <-> exists f, v = VFunction f.
Proof.
  split.
  - destruct v; simpl; try discriminate. eauto.
  - intros [f ->]. reflexivity.
Qed.

Lemma to_boolean_false (v : value) :
  to_boolean v = false <->
  v = VUndefined \/ v = VNull \/ v = VBool false \/ v = VNumber NaN \/
  v = VNumber (Finite 0) \/ v = VString "".
Proof.
  split.
  - destruct v as [| |b|n|s|l|f]; simpl; intros H; try discriminate; auto.
    + subst b. auto.
    + destruct n as [|z]; auto.
      apply negb_false_iff, Z.eqb_eq in H. subst z. auto 6.
    + apply negb_false_iff, String.eqb_eq in H. subst s. auto 7.
  - intros [->|[->|[->|[->|[->| ->]]]]]; reflexivity.
Qed.

Lemma strict_equals_true (a b : value) :
  strict_equals a b = true <-> a = b /\ a <> VNumber NaN.
Proof.
  split.
  - destruct a as [| |x|[|x]|x|x|x], b as [| |y|[|y]|y|y|y]; simpl;
      intros H; try discriminate; try (split; [reflexivity | discriminate]).
    + apply bool_decide_eq_true in H. subst. split; [reflexivity | discriminate].
    + apply Z.eqb_eq in H. subst. split; [reflexivity | discriminate].
    + apply String.eqb_eq in H. subst. split; [reflexivity | discriminate].
    + apply bool_decide_eq_true in H. subst. split; [reflexivity | discriminate].
    + apply bool_decide_eq_true in H. subst. split; [reflexivity | discriminate].
  - intros [<- Hn]. destruct a as [| |x|[|x]|x|x|x]; simpl; try reflexivity.
    + apply bool_decide_eq_true. reflexivity.
    + congruence.
    + apply Z.eqb_refl.
    + apply String.eqb_refl.
    + apply bool_decide_eq_true. reflexivity.
    + apply bool_decide_eq_true. reflexivity.
Qed.

(** ** What one intercepted call does to the world *)

Lemma record_on (args : list value) (w : world) :
  to_boolean (isRecording (self w)) = true ->
  record args w = mkWorld (heap w) (push_history args (self w)).
Proof. intros H. unfold record. rewrite H. reflexivity. Qed.

Lemma record_off (args : list value) (w : world) :
  to_boolean (isRecording (self w)) = false -> record args w = w.
Proof. intros H. unfold record. rewrite H. reflexivity. Qed.

Lemma record_keeps_flags (args : list value) (w : world) :
  isRecording (self (record args w)) = isRecording (self w) /\
  callThru (self (record args w)) = callThru (self w) /\
  heap (record args w) = heap w.
Proof. unfold record. destruct (to_boolean _); auto. Qed.

(** The closure records, hands the recorded world to the function it
    dispatches to, and does nothing afterwards. *)
Lemma spy_world apply method this args w :
  (spy apply method this args w).2 =
  if to_boolean (callThru (self (record args w))) then
    (apply (target_of (callThru (self (record args w))) method)
           this args (record args w)).2
  else record args w.
Proof.
  unfold spy, invoke.
  destruct (to_boolean (callThru (self (record args w)))); [|reflexivity].
  destruct (apply _ this args (record args w)) as [[v|e] w2]; reflexivity.
Qed.

(** ** Call history under recording *)

Lemma history_spec_calls method (calls : list (value * list value)) :
  forall hist,
    history_spec (map (fun c => OpCall method c.1 c.2) calls) true hist =
    hist ++ map snd calls.
Proof.
  induction calls as [|[this args] calls IH]; intros hist; simpl.
  - rewrite app_nil_r. reflexivity.
  - rewrite IH, <- app_assoc. reflexivity.
Qed.

Section History.

Variable apply : callable -> value -> list value -> world -> completion * world.
Hypothesis apply_keeps : keeps_history apply.

Lemma spy_keeps_recording method this args w :
  isRecording (self (spy apply method this args w).2) = isRecording (self w).
Proof.
  rewrite spy_world.
  destruct (record_keeps_flags args w) as (Hr & _ & _).
  destruct (to_boolean (callThru (self (record args w)))); [|exact Hr].
  destruct (apply_keeps (target_of (callThru (self (record args w))) method)
              this args (record args w)) as [-> _].
  exact Hr.
Qed.

Lemma spy_history method this args w :
  callHistory (self (spy apply method this args w).2) =
  if to_boolean (isRecording (self w))
  then callHistory (self w) ++ [args] else callHistory (self w).
Proof.
  rewrite spy_world.
  assert (Hrec : callHistory (self (record args w)) =
                 if to_boolean (isRecording (self w))
                 then callHistory (self w) ++ [args] else callHistory (self w)).
  { unfold record. destruct (to_boolean (isRecording (self w))); reflexivity. }
  destruct (to_boolean (callThru (self (record args w)))); [|exact Hrec].
  destruct (apply_keeps (target_of (callThru (self (record args w))) method)
              this args (record args w)) as [_ ->].
  exact Hrec.
Qed.

Lemma exec_call_world method this args w :
  (exec apply (OpCall method this args) w).2 = (spy apply method this args w).2.
Proof.
  simpl. destruct (spy apply method this args w) as [[log c] w']. reflexivity.
Qed.

Lemma retire_keeps w :
  isRecording (self (retire w)) = isRecording (self w) /\
  callThru (self (retire w)) = callThru (self w) /\
  callHistory (self (retire w)) = callHistory (self w).
Proof. unfold retire. destruct (_ && _); auto. Qed.

Lemma run_history os : forall w,
  callHistory (self (run apply os w)) =
  history_spec os (to_boolean (isRecording (self w))) (callHistory (self w)).
Proof.
  induction os as [|o os IH]; intros w; [reflexivity|].
  cbn [run history_spec]. rewrite IH.
  destruct o as [method this args| | | | |v|].
  - rewrite exec_call_world, spy_keeps_recording, spy_history. reflexivity.
  - reflexivity.
  - reflexivity.
  - reflexivity.
  - reflexivity.
  - reflexivity.
  - simpl. destruct (retire_keeps w) as (-> & _ & ->). reflexivity.
Qed.

Lemma history_spec_emptied os : forall recording hist,
  hist <> [] -> history_spec os recording hist = [] ->
  In OpClear os \/ In OpReset os.
Proof.
  induction os as [|o os IH]; intros recording hist Hne Hempty.
  - contradiction.
  - destruct o as [method this args| | | | |v|]; cbn [history_spec] in Hempty;
      simpl; try (destruct (IH _ _ Hne Hempty); tauto); try tauto.
    assert (Hne' : (if recording then hist ++ [args] else hist) <> []).
    { destruct recording; [|exact Hne].
      intros Happ. apply app_eq_nil in Happ as [_ Habs]. discriminate. }
    destruct (IH _ _ Hne' Hempty); tauto.
Qed.

End History.

(** C1.  An intercepted call first appends its argument list, as one
    entry at the end of [callHistory], exactly when [isRecording] is truthy,
    and then only forwards: the world it leaves is the one the forwarded
    function left, or the recorded one when nothing is forwarded.  Hence,
    when the forwarded functions leave the spy's flag and history alone: a
    call made while [isRecording] is truthy appends exactly that one entry;
    one made while it is falsy leaves [callHistory] as it was; over any
    sequence of steps the history is the one the specification describes;
    after a run of intercepted calls with recording on it is the old
    history followed by the argument lists of those calls, oldest first,
    each element for element; and a non-empty history can only have become
    empty when the sequence contains a clear or a reset. *)
Theorem callHistory_records_intercepted_calls
    (apply : callable -> value -> list value -> world -> completion * world) :
  (forall args w,
     callHistory (self (record args w)) =
     if to_boolean (isRecording (self w))
     then callHistory (self w) ++ [args] else callHistory (self w)) /\
  (forall method this args w,
     (spy apply method this args w).2 =
     if to_boolean (callThru (self w)) then
       (apply (target_of (callThru (self w)) method) this args (record args w)).2
     else record args w) /\
  (keeps_history apply ->
   (forall method this args w,
      to_boolean (isRecording (self w)) = true ->
      callHistory (self (spy apply method this args w).2) =
      callHistory (self w) ++ [args]) /\
   (forall method this args w,
      to_boolean (isRecording (self w)) = false ->
      callHistory (self (spy apply method this args w).2) = callHistory (self w)) /\
   (forall os w,
      callHistory (self (run apply os w)) =
      history_spec os (to_boolean (isRecording (self w))) (callHistory (self w))) /\
   (forall method calls w,
      to_boolean (isRecording (self w)) = true ->
      callHistory (self (run apply (map (fun c => OpCall method c.1 c.2) calls) w)) =
      callHistory (self w) ++ map snd calls) /\
   (forall os w,
      callHistory (self w) <> [] ->
      callHistory (self (run apply os w)) = [] ->
      In OpClear os \/ In OpReset os)).
Proof.
  split; [|split].
  - intros args w. unfold record.
    destruct (to_boolean (isRecording (self w))); reflexivity.
  - intros method this args w. rewrite spy_world.
    destruct (record_keeps_flags args w) as (_ & -> & _). reflexivity.
  - intros Hkeeps. split; [|split; [|split; [|split]]].
    + intros method this args w H. rewrite spy_history, H by assumption.
      reflexivity.
    + intros method this args w H. rewrite spy_history, H by assumption.
      reflexivity.
    + intros os w. apply run_history. assumption.
    + intros method calls w H. rewrite run_history, H by assumption.
      apply history_spec_calls.
    + intros os w Hne Hempty.
      rewrite run_history in Hempty by assumption.
      exact (history_spec_emptied _ _ _ Hne Hempty).
Qed.

(** ** The test bed behaves as the test file expects *)

Example demo_construct :
  MojoSpy demo_object "method" demo_heap = Constructed demo_world.
Proof. vm_compute. reflexivity. Qed.

Lemma demo_apply_keeps : keeps_history demo_apply.
Proof.
  intros f this args w.
  destruct f as [[|[|[|[|n]]]]|m]; simpl; auto.
Defined.

Lemma callHistory_records_intercepted_calls_witness :
  callHistory (self (run demo_apply
     [OpCall (Host 0) (VObject demo_object) [num 1; num 2; num 3];
      OpCall (Host 0) (VObject demo_object) [num 4; num 5; num 6]]
     demo_world)) = [[num 1; num 2; num 3]; [num 4; num 5; num 6]].
Proof.
  destruct (callHistory_records_intercepted_calls demo_apply)
    as (_ & _ & Hseq).
  destruct (Hseq demo_apply_keeps) as (_ & _ & _ & Hcalls & _).
  exact (Hcalls (Host 0)
           [(VObject demo_object, [num 1; num 2; num 3]);
            (VObject demo_object, [num 4; num 5; num 6])]
           demo_world eq_refl).
Defined.

(** ** Dispatch *)

Lemma spy_silent apply method this args w :
  to_boolean (callThru (self w)) = false ->
  spy apply method this args w = ([], Normal VUndefined, record args w).
Proof.
  intros H. unfold spy.
  destruct (record_keeps_flags args w) as (_ & -> & _). rewrite H. reflexivity.
Qed.

Lemma spy_forwards apply method this args w :
  to_boolean (callThru (self w)) = true ->
  let f := target_of (callThru (self w)) method in
  (spy apply method this args w).1.1 = [mkInvocation f this args] /\
  (spy apply method this args w).2 = (apply f this args (record args w)).2 /\
  (spy apply method this args w).1.2 =
    match (apply f this args (record args w)).1 with
    | Normal _ => Normal VUndefined
    | Throw e => Throw e
    end.
Proof.
  intros H f. unfold spy, invoke. subst f.
  destruct (record_keeps_flags args w) as (_ & -> & _). rewrite H.
  destruct (apply _ this args (record args w)) as [[v|e] w2]; auto.
Qed.

(** C2.  With [callThru] set to [false] (silent) an intercepted call
    invokes nothing and only records; set to [true] (pass-through) it
    invokes the original method exactly once, on the same receiver with
    the same arguments; set to a function [f] (substitute) it invokes [f]
    exactly once, on the same receiver with the same arguments, and makes
    no call of its own to the original. *)
Theorem dispatch_follows_forward_mode
    (apply : callable -> value -> list value -> world -> completion * world)
    (method : callable) (this : value) (args : list value)
    (h : gmap loc (gmap string value)) (s : MojoSpyObject) :
  let silent := mkWorld h (set_callThru (VBool false) s) in
  let pass := mkWorld h (set_callThru (VBool true) s) in
  (spy apply method this args silent = ([], Normal VUndefined, record args silent)) /\
  ((spy apply method this args pass).1.1 = [mkInvocation method this args] /\
   (spy apply method this args pass).2 =
     (apply method this args (record args pass)).2) /\
  (forall f,
     let subst := mkWorld h (set_callThru (VFunction f) s) in
     (spy apply method this args subst).1.1 = [mkInvocation f this args] /\
     (spy apply method this args subst).2 =
       (apply f this args (record args subst)).2).
Proof.
  intros silent pass. split; [|split].
  - apply spy_silent. reflexivity.
  - destruct (spy_forwards apply method this args pass eq_refl) as (Hl & Hw & _).
    split; assumption.
  - intros f subst.
    destruct (spy_forwards apply method this args subst eq_refl) as (Hl & Hw & _).
    split; assumption.
Qed.

(** C7.  When the function an intercepted call is forwarded to throws,
    the call throws the same value, the world is left exactly as that
    function left it (the closure catches nothing and undoes nothing), and
    the function ran in a world whose history already had the entry of
    this call when recording was on; if it did not touch the history, the
    entry is still there. *)
Theorem thrown_error_propagates
    (apply : callable -> value -> list value -> world -> completion * world)
    (method : callable) (this : value) (args : list value) (w w2 : world)
    (e : value) :
  to_boolean (callThru (self w)) = true ->
  apply (target_of (callThru (self w)) method) this args (record args w)
    = (Throw e, w2) ->
  (spy apply method this args w).1.2 = Throw e /\
  (spy apply method this args w).2 = w2 /\
  (to_boolean (isRecording (self w)) = true ->
   callHistory (self (record args w)) = callHistory (self w) ++ [args] /\
   (callHistory (self w2) = callHistory (self (record args w)) ->
    callHistory (self (spy apply method this args w).2) =
    callHistory (self w) ++ [args])).
Proof.
  intros Hthru Hthrow.
  destruct (spy_forwards apply method this args w Hthru) as (_ & Hw & Hc).
  cbv zeta in Hw, Hc. rewrite Hthrow in Hw, Hc. simpl in Hw, Hc.
  split; [exact Hc|]. split; [exact Hw|].
  intros Hrec.
  assert (Hpush : callHistory (self (record args w)) = callHistory (self w) ++ [args]).
  { rewrite record_on by assumption. reflexivity. }
  split; [exact Hpush|].
  intros Hkept. rewrite Hw, Hkept. exact Hpush.
Qed.

Lemma thrown_error_propagates_witness :
  (spy demo_apply (Host 0) (VObject demo_object) [num 1]
       (mkWorld (heap demo_world)
                (set_callThru (VFunction (Host 2)) (self demo_world)))).1.2
  = Throw (VString "boom").
Proof.
  pose (w := mkWorld (heap demo_world)
                     (set_callThru (VFunction (Host 2)) (self demo_world))).
  exact (proj1 (thrown_error_propagates demo_apply (Host 0)
                  (VObject demo_object) [num 1] w (record [num 1] w)
                  (VString "boom") eq_refl eq_refl)).
Defined.

(** C9.  In every forward mode an intercepted call that completes
    normally returns [undefined]: whatever the original method or the
    substitute returned is dropped. *)
Theorem wrapper_returns_undefined
    (apply : callable -> value -> list value -> world -> completion * world)
    (method : callable) (this : value) (args : list value) (w : world) :
  (forall v, (spy apply method this args w).1.2 = Normal v -> v = VUndefined) /\
  (forall r,
     to_boolean (callThru (self w)) = true ->
     (apply (target_of (callThru (self w)) method) this args (record args w)).1
       = Normal r ->
     (spy apply method this args w).1.2 = Normal VUndefined) /\
  (to_boolean (callThru (self w)) = false ->
   (spy apply method this args w).1.2 = Normal VUndefined).
Proof.
  split; [|split].
  - intros v. destruct (to_boolean (callThru (self w))) eqn:Hthru.
    + destruct (spy_forwards apply method this args w Hthru) as (_ & _ & ->).
      cbv zeta.
      destruct (apply _ this args (record args w)).1; intros [= <-]; reflexivity.
    + rewrite spy_silent by assumption. intros [= <-]. reflexivity.
  - intros r Hthru Hret.
    destruct (spy_forwards apply method this args w Hthru) as (_ & _ & ->).
    cbv zeta. rewrite Hret. reflexivity.
  - intros Hthru. rewrite spy_silent by assumption. reflexivity.
Qed.

Lemma wrapper_returns_undefined_witness :
  (demo_apply (Host 0) (VObject demo_object) [num 1]
     (record [num 1]
        (mkWorld (heap demo_world)
                 (set_callThru (VBool true) (self demo_world))))).1
    = Normal (num 42) /\
  (spy demo_apply (Host 0) (VObject demo_object) [num 1]
       (mkWorld (heap demo_world)
                (set_callThru (VBool true) (self demo_world)))).1.2
    = Normal VUndefined.
Proof.
  split; [reflexivity|].
  exact (proj1 (proj2 (wrapper_returns_undefined demo_apply (Host 0)
                  (VObject demo_object) [num 1]
                  (mkWorld (heap demo_world)
                           (set_callThru (VBool true) (self demo_world)))))
               (num 42) eq_refl eq_refl).
Defined.

Lemma target_of_non_function (v : value) (method : callable) :
  typeof v <> "function" -> target_of v method = method.
Proof. destruct v; simpl; try reflexivity. intros H. contradiction H. reflexivity. Qed.

(** C10.  The forward mode is whatever [callThru] holds, read by
    truthiness and type: with any falsy value ([false], [0], [null],
    [undefined], the empty string) an intercepted call invokes nothing
    and only records; with any truthy value that is not a function (not
    only [true]) it calls the original method, once, on the recorded
    world, and ends as that call ends (its value dropped); with any
    function it does the same with that function. *)
Theorem callThru_read_by_truthiness_and_type
    (apply : callable -> value -> list value -> world -> completion * world)
    (method : callable) (this : value) (args : list value)
    (h : gmap loc (gmap string value)) (s : MojoSpyObject) :
  (forall v, to_boolean v = false ->
     spy apply method this args (mkWorld h (set_callThru v s)) =
     ([], Normal VUndefined, record args (mkWorld h (set_callThru v s)))) /\
  (forall v, In v [VBool false; num 0; VNull; VUndefined; VString ""] ->
     to_boolean v = false) /\
  (forall v, to_boolean v = true -> typeof v <> "function" ->
     let w := mkWorld h (set_callThru v s) in
     (spy apply method this args w).1.1 = [mkInvocation method this args] /\
     (spy apply method this args w).2 =
       (apply method this args (record args w)).2 /\
     (spy apply method this args w).1.2 =
       match (apply method this args (record args w)).1 with
       | Normal _ => Normal VUndefined
       | Throw e => Throw e
       end) /\
  (forall l z str, z <> 0%Z -> str <> "" ->
     to_boolean (VBool true) = true /\ typeof (VBool true) <> "function" /\
     to_boolean (VObject l) = true /\ typeof (VObject l) <> "function" /\
     to_boolean (num z) = true /\ typeof (num z) <> "function" /\
     to_boolean (VString str) = true /\ typeof (VString str) <> "function") /\
  (forall v, typeof v = "function" ->
     exists f, v = VFunction f /\
     let w := mkWorld h (set_callThru v s) in
     (spy apply method this args w).1.1 = [mkInvocation f this args] /\
     (spy apply method this args w).2 =
       (apply f this args (record args w)).2 /\
     (spy apply method this args w).1.2 =
       match (apply f this args (record args w)).1 with
       | Normal _ => Normal VUndefined
       | Throw e => Throw e
       end).
Proof.
  split; [|split; [|split; [|split]]].
  - intros v Hv. apply spy_silent. exact Hv.
  - intros v Hin. simpl in Hin.
    destruct Hin as [<-|[<-|[<-|[<-|[<-|[]]]]]]; reflexivity.
  - intros v Hv Hty w.
    pose proof (spy_forwards apply method this args w Hv) as Hf.
    cbv zeta in Hf. subst w. simpl callThru in Hf.
    rewrite target_of_non_function in Hf by exact Hty. exact Hf.
  - intros l z str Hz Hstr. simpl.
    repeat split; try discriminate.
    + apply negb_true_iff, Z.eqb_neq. exact Hz.
    + apply negb_true_iff, String.eqb_neq. exact Hstr.
  - intros v Hty. apply typeof_function in Hty as [f ->].
    exists f. split; [reflexivity|]. intros w.
    exact (spy_forwards apply method this args w eq_refl).
Qed.

Lemma callThru_read_by_truthiness_and_type_witness :
  get_property
    (heap (spy demo_apply (Host 0) (VObject demo_object) [num 1]
             (mkWorld demo_heap (set_callThru (VString "yes") (self demo_world)))).2)
    demo_object "methodArgs" = num 1 /\
  get_property
    (heap (spy demo_apply (Host 0) (VObject demo_object) [num 1]
             (mkWorld demo_heap (set_callThru (VFunction (Host 1)) (self demo_world)))).2)
    demo_object "calledMock" = num 1 /\
  (spy demo_apply (Host 0) (VObject demo_object) [num 1]
       (mkWorld demo_heap (set_callThru (VFunction (Host 2)) (self demo_world)))).1.2
    = Throw (VString "boom") /\
  spy demo_apply (Host 0) (VObject demo_object) [num 1]
      (mkWorld demo_heap (set_callThru (VString "") (self demo_world)))
  = ([], Normal VUndefined,
     record [num 1] (mkWorld demo_heap (set_callThru (VString "") (self demo_world)))).
Proof.
  destruct (callThru_read_by_truthiness_and_type demo_apply (Host 0)
              (VObject demo_object) [num 1] demo_heap (self demo_world))
    as (Hfalsy & _ & Htruthy & _ & Hfun).
  split; [|split; [|split]].
  - destruct (Htruthy (VString "yes") eq_refl ltac:(discriminate))
      as (_ & Hw & _).
    cbv zeta in Hw. rewrite Hw. reflexivity.
  - destruct (Hfun (VFunction (Host 1)) eq_refl) as (f & Hf & _ & Hw & _).
    injection Hf as <-. cbv zeta in Hw. rewrite Hw. reflexivity.
  - destruct (Hfun (VFunction (Host 2)) eq_refl) as (f & Hf & _ & _ & Hc).
    injection Hf as <-. cbv zeta in Hc. rewrite Hc. reflexivity.
  - apply (Hfalsy (VString "")). reflexivity.
Defined.

(** ** [clear] *)

(** C8.  [clear] leaves an empty [callHistory] and every other field of
    the spy, [isRecording] and [callThru] among them, as it was; as a step
    it completes normally in every world and leaves the heap alone. *)
Theorem clear_only_empties_history
    (apply : callable -> value -> list value -> world -> completion * world)
    (w : world) :
  callHistory (clear (self w)) = [] /\
  isRecording (clear (self w)) = isRecording (self w) /\
  callThru (clear (self w)) = callThru (self w) /\
  object (clear (self w)) = object (self w) /\
  methodName (clear (self w)) = methodName (self w) /\
  method (clear (self w)) = method (self w) /\
  exec apply OpClear w = (Normal VUndefined, mkWorld (heap w) (clear (self w))).
Proof. repeat split. Qed.

(** ** Construction *)


Lemma get_set_property_eq h l name v o :
  h !! l = Some o -> get_property (set_property h l name v) l name = v.
Proof.
  intros Ho. unfold get_property, set_property.
  rewrite lookup_alter_eq, Ho. simpl. rewrite lookup_insert_eq. reflexivity.
Qed.

Lemma get_set_property_ne h l name v l' name' :
  (l, name) <> (l', name') ->
  get_property (set_property h l name v) l' name' = get_property h l' name'.
Proof.
  intros Hne. unfold get_property, set_property.
  destruct (decide (l = l')) as [<-|Hl].
  - rewrite lookup_alter_eq. destruct (h !! l) as [o|]; simpl; [|reflexivity].
    rewrite lookup_insert_ne; [reflexivity|]. congruence.
  - rewrite lookup_alter_ne by exact Hl. reflexivity.
Qed.




(** C6.  When [object[methodName]] is not a function, construction throws
    the string 'Cannot spy on a non-function!' and returns the heap it
    was given: nothing was assigned and no instance exists. *)
Theorem construction_rejects_non_function
    (h : gmap loc (gmap string value)) (obj : loc) (name : string) :
  typeof (get_property h obj name) <> "function" ->
  MojoSpy obj name h = Failed (VString "Cannot spy on a non-function!") h.
Proof.
  intros Hty. unfold MojoSpy.
  destruct (get_property h obj name); try reflexivity.
  contradiction Hty. reflexivity.
Qed.

Lemma construction_rejects_non_function_witness :
  MojoSpy demo_object "count" demo_heap
  = Failed (VString "Cannot spy on a non-function!") demo_heap.
Proof.
  apply (construction_rejects_non_function demo_heap demo_object "count").
  vm_compute. discriminate.
Defined.

(** ** [wasCalled] *)

Lemma wasCalled_loop_true callArgs args n : forall i,
  wasCalled_loop callArgs args n i = true <->
  forall j, i <= j < i + n ->
    strict_equals (index callArgs j) (index args j) = true.
Proof.
  induction n as [|n IH]; intros i; simpl.
  - split; [intros _ j Hj; lia | reflexivity].
  - destruct (strict_equals (index callArgs i) (index args i)) eqn:Hi; simpl.
    + rewrite IH. split.
      * intros H j Hj. destruct (decide (j = i)) as [->|Hne]; [exact Hi|].
        apply H. lia.
      * intros H j Hj. apply H. lia.
    + split; [discriminate|]. intros H.
      rewrite <- Hi. apply H. lia.
Qed.

Lemma some_true {A} (f : A -> value) (a : list A) :
  some f a = true <-> exists x, In x a /\ to_boolean (f x) = true.
Proof.
  induction a as [|x a IH]; simpl.
  - split; [discriminate | intros (x & [] & _)].
  - destruct (to_boolean (f x)) eqn:Hx.
    + split; [eauto | reflexivity].
    + rewrite IH. split.
      * intros (y & Hin & Hy). eauto.
      * intros (y & [<-|Hin] & Hy); [congruence | eauto].
Qed.

Lemma wasCalled_callback_true args callArgs :
  to_boolean (wasCalled_callback args callArgs) = true <->
  length callArgs = length args /\
  forall i, i < length args ->
    strict_equals (index callArgs i) (index args i) = true.
Proof.
  unfold wasCalled_callback.
  destruct (length callArgs =? length args)%nat eqn:Hlen.
  - apply Nat.eqb_eq in Hlen. simpl. rewrite wasCalled_loop_true.
    split.
    + intros H. split; [exact Hlen|]. intros i Hi. apply H. lia.
    + intros [_ H] j Hj. apply H. lia.
  - apply Nat.eqb_neq in Hlen. simpl. split; [discriminate | tauto].
Qed.

(** The callback is truthy exactly on the entries that are, position by
    position, the same values as the expected arguments, none of them
    [NaN]. *)
Lemma wasCalled_callback_Forall2 args entry :
  to_boolean (wasCalled_callback args entry) = true <->
  Forall2 (fun a b => a = b /\ a <> VNumber NaN) entry args.
Proof.
  rewrite wasCalled_callback_true, Forall2_same_length_lookup. split.
  - intros [Hlen Hall]. split; [exact Hlen|]. intros i a b Ha Hb.
    assert (Hi : i < length args) by (eapply lookup_lt_Some; exact Hb).
    specialize (Hall i Hi). unfold index in Hall. rewrite Ha, Hb in Hall.
    apply strict_equals_true. exact Hall.
  - intros [Hlen Hall]. split; [exact Hlen|]. intros i Hi.
    destruct (lookup_lt_is_Some_2 args i Hi) as [b Hb].
    destruct (lookup_lt_is_Some_2 entry i ltac:(lia)) as [a Ha].
    unfold index. rewrite Ha, Hb. simpl.
    apply strict_equals_true. exact (Hall i a b Ha Hb).
Qed.

(** C3.  Without arguments [wasCalled] is true exactly when the history
    is non-empty, so a recorded call without arguments counts.  With
    expected arguments [e1 ... eN] it is true exactly when some entry of the
    history has [N] elements, each the very value expected at its position
    and none [NaN] (which is what [===] asks); objects match by identity,
    not by structure; and an entry that does not match, by its length or
    by any element, is passed over: the answer is the one the rest of the
    history gives. *)
Theorem wasCalled_finds_matching_entry :
  (forall s, wasCalled [] s = true <-> callHistory s <> []) /\
  (forall s, In [] (callHistory s) -> wasCalled [] s = true) /\
  (forall e es s,
     wasCalled (e :: es) s = true <->
     exists entry,
       In entry (callHistory s) /\
       Forall2 (fun a b => a = b /\ a <> VNumber NaN) entry (e :: es)) /\
  (forall e es s,
     wasCalled (e :: es) s = true <->
     exists entry,
       In entry (callHistory s) /\
       length entry = length (e :: es) /\
       forall i a b, entry !! i = Some a -> (e :: es) !! i = Some b ->
         a = b /\ a <> VNumber NaN) /\
  (forall l1 l2 o n m r c,
     wasCalled [VObject l1] (mkSpy o n m r c [[VObject l2]]) = true <-> l1 = l2) /\
  (forall a b, strict_equals a b = true <-> a = b /\ a <> VNumber NaN) /\
  (forall e es entry rest o n m r c,
     ~ Forall2 (fun a b => a = b /\ a <> VNumber NaN) entry (e :: es) ->
     wasCalled (e :: es) (mkSpy o n m r c (entry :: rest)) =
     wasCalled (e :: es) (mkSpy o n m r c rest)).
Proof.
  assert (Hmain : forall e es s,
     wasCalled (e :: es) s = true <->
     exists entry,
       In entry (callHistory s) /\
       Forall2 (fun a b => a = b /\ a <> VNumber NaN) entry (e :: es)).
  { intros e es s. unfold wasCalled. simpl to_boolean. cbv zeta.
    rewrite some_true. split.
    - intros (entry & Hin & Hcb). exists entry. split; [exact Hin|].
      apply wasCalled_callback_Forall2. exact Hcb.
    - intros (entry & Hin & Hall). exists entry. split; [exact Hin|].
      apply wasCalled_callback_Forall2. exact Hall. }
  split; [|split; [|split; [|split; [|split; [|split]]]]].
  - intros s. unfold wasCalled. simpl.
    destruct (callHistory s) as [|x l]; simpl.
    + split; [discriminate | intros H; contradiction H; reflexivity].
    + split; [discriminate | reflexivity].
  - intros s Hin. unfold wasCalled. simpl.
    destruct (callHistory s); [destruct Hin | reflexivity].
  - exact Hmain.
  - intros e es s. rewrite Hmain. split.
    + intros (entry & Hin & Hall). exists entry. split; [exact Hin|].
      apply Forall2_same_length_lookup in Hall. exact Hall.
    + intros (entry & Hin & Hall). exists entry. split; [exact Hin|].
      apply Forall2_same_length_lookup. exact Hall.
  - intros l1 l2 o n m r c. rewrite Hmain. simpl. split.
    + intros (entry & [<-|[]] & Hall).
      inversion Hall as [|a b l k [Heq _] _]; subst. congruence.
    + intros ->. exists [VObject l2]. split; [left; reflexivity|].
      constructor; [split; [reflexivity | discriminate] | constructor].
  - exact strict_equals_true.
  - intros e es entry rest o n m r c Hskip. unfold wasCalled.
    simpl to_boolean. cbv zeta. cbn [some callHistory].
    destruct (to_boolean (wasCalled_callback (e :: es) entry)) eqn:Hcb;
      [|reflexivity].
    contradiction Hskip. apply wasCalled_callback_Forall2. exact Hcb.
Qed.

Lemma wasCalled_finds_matching_entry_witness :
  wasCalled [num 4; num 5]
    (mkSpy demo_object "method" (VFunction (Host 0)) (VBool true) (VBool false)
           [[num 1; num 2; num 3]; [num 4; num 5]; [num 6; num 7; num 8; num 9]])
  = true /\
  wasCalled [num 4; num 5]
    (mkSpy demo_object "method" (VFunction (Host 0)) (VBool true) (VBool false)
           [[num 1; num 2]])
  = false.
Proof.
  destruct wasCalled_finds_matching_entry as (_ & _ & Hfind & _ & _ & _ & Hskip).
  split.
  - apply Hfind. exists [num 4; num 5]. split.
    + simpl. right. left. reflexivity.
    + repeat constructor; discriminate.
  - rewrite Hskip; [reflexivity|]. intros Hall.
    inversion Hall as [|a b l k [Heq _] _]. discriminate Heq.
Defined.

(** ** [retire] *)

Lemma retire_restores w f o :
  methodName (self w) <> "" ->
  method (self w) = VFunction f ->
  heap w !! object (self w) = Some o ->
  get_property (heap (retire w)) (object (self w)) (methodName (self w))
    = VFunction f /\
  method (self (retire w)) = VNull /\
  object (self (retire w)) = object (self w) /\
  methodName (self (retire w)) = methodName (self w).
Proof.
  intros Hname Hm Ho. unfold retire. rewrite Hm. simpl.
  apply String.eqb_neq in Hname. rewrite Hname. simpl.
  split; [|auto]. eapply get_set_property_eq. exact Ho.
Qed.

Lemma retire_retired w : method (self w) = VNull -> retire w = w.
Proof.
  intros Hm. unfold retire. rewrite Hm. simpl.
  rewrite andb_false_r. reflexivity.
Qed.

Lemma retire_twice w : retire (retire w) = retire w.
Proof.
  assert (H : retire w = w \/ method (self (retire w)) = VNull).
  { unfold retire. destruct (_ && _); auto. }
  destruct H as [H|H].
  - rewrite !H. reflexivity.
  - apply retire_retired. exact H.
Qed.

(** Once the slot holds the original host function again, a call site
    reaches that function directly: the closure does not run. *)
Lemma call_member_after_retire apply w id o this args :
  methodName (self w) <> "" ->
  method (self w) = VFunction (Host id) ->
  heap w !! object (self w) = Some o ->
  call_member apply this args (retire w) =
  ([], (apply (Host id) this args (retire w)).1,
       (apply (Host id) this args (retire w)).2).
Proof.
  intros Hname Hm Ho.
  destruct (retire_restores w (Host id) o Hname Hm Ho) as (Hslot & _ & Hobj & Hn).
  unfold call_member. rewrite Hobj, Hn, Hslot.
  destruct (apply (Host id) this args (retire w)). reflexivity.
Qed.

Lemma retire_empty_name w : methodName (self w) = "" -> retire w = w.
Proof.
  intros Hname. unfold retire. rewrite Hname. reflexivity.
Qed.

(** C4.  A spy constructed on a method whose name is the empty string is
    not retired by [retire]: the guard reads the name as "not spying", so
    the slot still holds the closure, [method] is not set to [null], and a
    later call through the slot is still recorded. *)
Theorem retire_skips_empty_method_name :
  exists w,
    MojoSpy demo_object "" nameless_heap = Constructed w /\
    retire w = w /\
    get_property (heap (retire w)) demo_object ""
      = VFunction (SpyClosure (Host 0)) /\
    method (self (retire w)) = VFunction (Host 0) /\
    callHistory (self (call_member demo_apply (VObject demo_object) [num 1]
                         (retire w)).2) = [[num 1]].
Proof.
  eexists. split; [reflexivity|].
  split; [reflexivity|]. split; [reflexivity|]. split; reflexivity.
Qed.

(** ** The scenarios of test/index.js, run on the test bed *)

(** [obj.method(1,2,3)] on a fresh spy: recorded, found by [wasCalled]
    with the same arguments and not with others, and the original method
    did not run. *)
Example scenario_record_and_query :
  let w := (call_member demo_apply (VObject demo_object) [num 1; num 2; num 3]
              demo_world).2 in
  callHistory (self w) = [[num 1; num 2; num 3]] /\
  wasCalled [num 1; num 2; num 3] (self w) = true /\
  wasCalled [num 4; num 5] (self w) = false /\
  wasCalled [] (self w) = true /\
  get_property (heap w) demo_object "methodArgs" = VUndefined.
Proof. repeat split. Qed.

(** [spy.callThru = true; obj.method(7)]: the original method runs. *)
Example scenario_call_through :
  let w0 := mkWorld (heap demo_world)
                    (set_callThru (VBool true) (self demo_world)) in
  let w := (call_member demo_apply (VObject demo_object) [num 7] w0).2 in
  get_property (heap w) demo_object "methodArgs" = num 7 /\
  get_property (heap w) demo_object "calledMock" = VUndefined.
Proof. repeat split. Qed.

(** [spy.callThru = mock; obj.method(7)]: the mock runs instead. *)
Example scenario_mock :
  let w0 := mkWorld (heap demo_world)
                    (set_callThru (VFunction (Host 1)) (self demo_world)) in
  let w := (call_member demo_apply (VObject demo_object) [num 7] w0).2 in
  get_property (heap w) demo_object "methodArgs" = VUndefined /\
  get_property (heap w) demo_object "calledMock" = num 7.
Proof. repeat split. Qed.

(** [spy.retire()] on the test bed restores [func]; a later call is not
    recorded. *)
Example scenario_retire :
  get_property (heap (retire demo_world)) demo_object "method"
    = VFunction (Host 0) /\
  method (self (retire demo_world)) = VNull /\
  callHistory (self (call_member demo_apply (VObject demo_object) [num 1]
                       (retire demo_world)).2) = [].
Proof. repeat split. Qed.

(** A mock that itself calls the original: one call of the closure, to
    the mock, and both have seen the arguments. *)
Example scenario_mock_calls_original :
  let w0 := mkWorld (heap demo_world)
                    (set_callThru (VFunction (Host 3)) (self demo_world)) in
  let r := call_member demo_apply (VObject demo_object) [num 7; num 8] w0 in
  r.1.1 = [mkInvocation (Host 3) (VObject demo_object) [num 7; num 8]] /\
  get_property (heap r.2) demo_object "methodArgs" = num 7 /\
  get_property (heap r.2) demo_object "calledMock" = num 7 /\
  callHistory (self r.2) = [[num 7; num 8]].
Proof. repeat split. Qed.

(** * Further properties of the code *)

(** ** Construction followed by retirement *)


Lemma set_property_back h l name v v' o :
  h !! l = Some o -> o !! name = Some v ->
  set_property (set_property h l name v') l name v = h.
Proof.
  intros Ho Hn. unfold set_property. apply map_eq. intros i.
  destruct (decide (l = i)) as [<-|Hne].
  - rewrite !lookup_alter_eq, Ho. simpl.
    rewrite insert_insert_eq, insert_id by exact Hn. reflexivity.
  - rewrite !lookup_alter_ne by exact Hne. reflexivity.
Qed.

(** When the spied-upon function is an own property of the object,
    under a non-empty name, spying on it and then retiring (or closing)
    the spy gives back the very heap the constructor was given, and marks
    the instance retired. *)
Theorem construct_retire_round_trip
    (h : gmap loc (gmap string value)) (obj : loc) (name : string)
    (o : gmap string value) (f : callable) :
  name <> "" ->
  h !! obj = Some o ->
  o !! name = Some (VFunction f) ->
  exists w,
    MojoSpy obj name h = Constructed w /\
    heap (retire w) = h /\
    heap (close w) = h /\
    method (self (retire w)) = VNull.
Proof.
  intros Hname Ho Hn.
  assert (Hf : get_property h obj name = VFunction f).
  { unfold get_property. rewrite Ho, Hn. reflexivity. }
  unfold MojoSpy. rewrite Hf. eexists. split; [reflexivity|].
  unfold close, retire. simpl.
  apply String.eqb_neq in Hname. rewrite Hname. simpl.
  rewrite (set_property_back h obj name _ _ o Ho Hn). auto.
Qed.

Lemma construct_retire_round_trip_witness :
  exists w,
    MojoSpy demo_object "method" demo_heap = Constructed w /\
    heap (retire w) = demo_heap.
Proof.
  destruct (construct_retire_round_trip demo_heap demo_object "method"
              {[ "method" := VFunction (Host 0); "count" := VNumber (Finite 7) ]}
              (Host 0) ltac:(discriminate) eq_refl eq_refl)
    as (w & Hc & Hr & _).
  exists w. split; assumption.
Defined.

(** [retire] writes at most the spied-upon slot: every other slot of the
    heap, the flags and the call history are as before, so the history can
    still be read after tear-down. *)
Theorem retire_touches_only_the_slot (w : world) :
  (forall l name, (object (self w), methodName (self w)) <> (l, name) ->
     get_property (heap (retire w)) l name = get_property (heap w) l name) /\
  isRecording (self (retire w)) = isRecording (self w) /\
  callThru (self (retire w)) = callThru (self w) /\
  callHistory (self (retire w)) = callHistory (self w) /\
  object (self (retire w)) = object (self w) /\
  methodName (self (retire w)) = methodName (self w).
Proof.
  unfold retire. destruct (_ && _); simpl; [|tauto].
  split; [|tauto]. intros l name Hne. apply get_set_property_ne. exact Hne.
Qed.

Lemma retire_touches_only_the_slot_witness :
  get_property (heap (retire demo_world)) demo_object "count" = num 7.
Proof.
  rewrite (proj1 (retire_touches_only_the_slot demo_world) demo_object "count")
    by discriminate.
  reflexivity.
Defined.

(** ** What the control operations can and cannot do *)

Lemma exec_control_retired apply o w :
  control_op o = true -> method (self w) = VNull ->
  heap (exec apply o w).2 = heap w /\ method (self (exec apply o w).2) = VNull.
Proof.
  intros Hc Hm. destruct o; try discriminate Hc; simpl; auto.
  rewrite retire_retired by exact Hm. auto.
Qed.

(** A retired spy stays retired: once [method] is [null], no sequence of
    [on], [off], [clear], [reset], assignments to [callThru] and further
    [retire]s writes the heap again or gives the instance its method
    back. *)
Theorem retired_spy_is_not_rearmed
    (apply : callable -> value -> list value -> world -> completion * world)
    (os : list op) (w : world) :
  method (self w) = VNull ->
  forallb control_op os = true ->
  heap (run apply os w) = heap w /\ method (self (run apply os w)) = VNull.
Proof.
  revert w. induction os as [|o os IH]; intros w Hm Hos; [auto|].
  simpl in Hos. apply andb_prop in Hos as [Ho Hos].
  destruct (exec_control_retired apply o w Ho Hm) as [Hh Hm'].
  cbn [run]. destruct (IH _ Hm' Hos) as [-> ->]. auto.
Qed.

Lemma retired_spy_is_not_rearmed_witness :
  get_property
    (heap (run demo_apply [OpReset; OpOn; OpSetCallThru (VBool true); OpRetire]
               (retire demo_world)))
    demo_object "method" = VFunction (Host 0).
Proof.
  rewrite (proj1 (retired_spy_is_not_rearmed demo_apply
                    [OpReset; OpOn; OpSetCallThru (VBool true); OpRetire]
                    (retire demo_world) eq_refl eq_refl)).
  reflexivity.
Defined.

Lemma exec_flag_keeps apply o w :
  flag_op o = true ->
  heap (exec apply o w).2 = heap w /\
  object (self (exec apply o w).2) = object (self w) /\
  methodName (self (exec apply o w).2) = methodName (self w) /\
  method (self (exec apply o w).2) = method (self w).
Proof. intros Hf. destruct o; try discriminate Hf; simpl; auto. Qed.

(** [on], [off], [clear], [reset] and assignments to [callThru] do not
    disentangle the spy: after any sequence of them the heap and the
    instance's [object], [methodName] and [method] are as before, so a slot
    that held the closure still holds it and a call site still reaches
    it. *)
Theorem flag_operations_keep_spy_installed
    (apply : callable -> value -> list value -> world -> completion * world)
    (os : list op) (w : world) :
  forallb flag_op os = true ->
  heap (run apply os w) = heap w /\
  object (self (run apply os w)) = object (self w) /\
  methodName (self (run apply os w)) = methodName (self w) /\
  method (self (run apply os w)) = method (self w) /\
  (forall m this args,
     get_property (heap w) (object (self w)) (methodName (self w))
       = VFunction (SpyClosure m) ->
     call_member apply this args (run apply os w)
       = spy apply m this args (run apply os w)).
Proof.
  intros Hos.
  assert (H : heap (run apply os w) = heap w /\
              object (self (run apply os w)) = object (self w) /\
              methodName (self (run apply os w)) = methodName (self w) /\
              method (self (run apply os w)) = method (self w)).
  { revert w. induction os as [|o os IH]; intros w; [auto|].
    simpl in Hos. apply andb_prop in Hos as [Ho Hos].
    destruct (exec_flag_keeps apply o w Ho) as (Hh & Hobj & Hn & Hm).
    cbn [run]. destruct (IH Hos (exec apply o w).2) as (-> & -> & -> & ->).
    auto. }
  destruct H as (Hh & Hobj & Hn & Hm).
  repeat (split; [assumption|]).
  intros m this args Hslot. unfold call_member.
  rewrite Hh, Hobj, Hn, Hslot. reflexivity.
Qed.

Lemma flag_operations_keep_spy_installed_witness :
  call_member demo_apply (VObject demo_object) [num 1]
    (run demo_apply [OpOff; OpReset; OpClear] demo_world)
  = spy demo_apply (Host 0) (VObject demo_object) [num 1]
      (run demo_apply [OpOff; OpReset; OpClear] demo_world).
Proof.
  destruct (flag_operations_keep_spy_installed demo_apply
              [OpOff; OpReset; OpClear] demo_world eq_refl)
    as (_ & _ & _ & _ & Hcall).
  apply Hcall. reflexivity.
Defined.

(** ** The first call on a fresh spy *)



(** ** Sequences of calls between control operations *)

Lemma history_spec_calls_off method (calls : list (value * list value)) rest :
  forall hist,
    history_spec (map (fun c => OpCall method c.1 c.2) calls ++ rest) false hist =
    history_spec rest false hist.
Proof.
  induction calls as [|[this args] calls IH]; intros hist; simpl; [reflexivity|].
  apply IH.
Qed.

(** After [reset], whatever the flags and the history were, a run of
    intercepted calls leaves as history exactly the argument lists of
    those calls, in order; its length is the number of calls. *)
Theorem reset_then_calls_gives_their_arguments
    (apply : callable -> value -> list value -> world -> completion * world)
    (method : callable) (calls : list (value * list value)) (w : world) :
  keeps_history apply ->
  callHistory (self (run apply
     (OpReset :: map (fun c => OpCall method c.1 c.2) calls) w)) = map snd calls /\
  length (callHistory (self (run apply
     (OpReset :: map (fun c => OpCall method c.1 c.2) calls) w))) = length calls.
Proof.
  intros Hkeeps.
  assert (H : callHistory (self (run apply
     (OpReset :: map (fun c => OpCall method c.1 c.2) calls) w)) = map snd calls).
  { rewrite run_history by exact Hkeeps. cbn [history_spec].
    rewrite history_spec_calls. reflexivity. }
  split; [exact H|]. rewrite H. apply length_map.
Qed.

Lemma reset_then_calls_gives_their_arguments_witness :
  callHistory (self (run demo_apply
     [OpReset; OpCall (Host 0) VUndefined []; OpCall (Host 0) VUndefined [num 4]]
     (mkWorld demo_heap
        (mkSpy demo_object "method" (VFunction (Host 0)) VUndefined
               (VFunction (Host 2)) [[num 9]]))))
  = [[]; [num 4]].
Proof.
  exact (proj1 (reset_then_calls_gives_their_arguments demo_apply (Host 0)
                  [(VUndefined, []); (VUndefined, [num 4])]
                  (mkWorld demo_heap
                     (mkSpy demo_object "method" (VFunction (Host 0)) VUndefined
                            (VFunction (Host 2)) [[num 9]]))
                  demo_apply_keeps)).
Defined.

(** [off] suspends recording and [on] resumes it: any number of
    intercepted calls after [off] leave the history as it was, and the
    first call after [on] is appended to that same history. *)
Theorem off_suspends_on_resumes
    (apply : callable -> value -> list value -> world -> completion * world)
    (method : callable) (calls : list (value * list value))
    (this : value) (args : list value) (w : world) :
  keeps_history apply ->
  callHistory (self (run apply
     (OpOff :: map (fun c => OpCall method c.1 c.2) calls) w))
    = callHistory (self w) /\
  callHistory (self (run apply
     (OpOff :: map (fun c => OpCall method c.1 c.2) calls
        ++ [OpOn; OpCall method this args]) w))
    = callHistory (self w) ++ [args].
Proof.
  intros Hkeeps. split.
  - rewrite run_history by exact Hkeeps. cbn [history_spec].
    rewrite <- (app_nil_r (map _ calls)), history_spec_calls_off. reflexivity.
  - rewrite run_history by exact Hkeeps. cbn [history_spec].
    rewrite history_spec_calls_off. reflexivity.
Qed.

Lemma off_suspends_on_resumes_witness :
  callHistory (self (run demo_apply
     [OpOff; OpCall (Host 0) VUndefined [num 1]; OpCall (Host 0) VUndefined [num 2];
      OpOn; OpCall (Host 0) VUndefined [num 3]] demo_world))
  = [[num 3]].
Proof.
  exact (proj2 (off_suspends_on_resumes demo_apply (Host 0)
                  [(VUndefined, [num 1]); (VUndefined, [num 2])]
                  VUndefined [num 3] demo_world demo_apply_keeps)).
Defined.

(** ** The closure alone *)

(** With a falsy [callThru] the closure changes nothing but the call
    history: the heap and every other field of the instance are as
    before, and with a falsy [isRecording] as well the world is
    untouched. *)
Theorem silent_call_only_appends
    (apply : callable -> value -> list value -> world -> completion * world)
    (m : callable) (this : value) (args : list value) (w : world) :
  to_boolean (callThru (self w)) = false ->
  let w' := (spy apply m this args w).2 in
  heap w' = heap w /\
  object (self w') = object (self w) /\
  methodName (self w') = methodName (self w) /\
  method (self w') = method (self w) /\
  isRecording (self w') = isRecording (self w) /\
  callThru (self w') = callThru (self w) /\
  (to_boolean (isRecording (self w)) = false -> w' = w).
Proof.
  intros Hthru w'. subst w'. rewrite spy_silent by exact Hthru. simpl.
  unfold record. destruct (to_boolean (isRecording (self w))); simpl.
  - repeat split. discriminate.
  - repeat split.
Qed.

Lemma silent_call_only_appends_witness :
  heap (spy demo_apply (Host 0) VUndefined [num 1] demo_world).2
  = heap demo_world.
Proof.
  exact (proj1 (silent_call_only_appends demo_apply (Host 0) VUndefined
                  [num 1] demo_world eq_refl)).
Defined.

(** Retiring does not disarm the closure itself: called through a
    reference kept from before, it records as before and forwards to the
    same function as before, the original it captured included, although
    [method] is now [null]. *)
Theorem stale_closure_still_records_and_forwards
    (apply : callable -> value -> list value -> world -> completion * world)
    (method : callable) (this : value) (args : list value) (w : world) :
  (spy apply method this args (retire w)).1.1
    = (spy apply method this args w).1.1 /\
  callHistory (self (record args (retire w)))
    = callHistory (self (record args w)) /\
  (to_boolean (callThru (self w)) = true ->
   typeof (callThru (self w)) <> "function" ->
   (spy apply method this args (retire w)).1.1
     = [mkInvocation method this args]).
Proof.
  destruct (retire_keeps w) as (Hr & Ht & Hh).
  assert (Hlog : forall w0, (spy apply method this args w0).1.1 =
            if to_boolean (callThru (self w0))
            then [mkInvocation (target_of (callThru (self w0)) method) this args]
            else []).
  { intros w0. destruct (to_boolean (callThru (self w0))) eqn:H0.
    - exact (proj1 (spy_forwards apply method this args w0 H0)).
    - rewrite spy_silent by exact H0. reflexivity. }
  split; [|split].
  - rewrite !Hlog, Ht. reflexivity.
  - unfold record. rewrite Hr.
    destruct (to_boolean (isRecording (self w))); simpl; rewrite Hh; reflexivity.
  - intros Hthru Hty. rewrite Hlog, Ht, Hthru.
    rewrite target_of_non_function by exact Hty. reflexivity.
Qed.

Lemma stale_closure_still_records_and_forwards_witness :
  (spy demo_apply (Host 0) VUndefined [num 1]
       (retire (mkWorld (heap demo_world)
                        (set_callThru (VBool true) (self demo_world))))).1.1
  = [mkInvocation (Host 0) VUndefined [num 1]].
Proof.
  exact (proj2 (proj2 (stale_closure_still_records_and_forwards demo_apply
                  (Host 0) VUndefined [num 1]
                  (mkWorld (heap demo_world)
                           (set_callThru (VBool true) (self demo_world)))))
               eq_refl ltac:(discriminate)).
Defined.

(** ** Querying the history *)

Lemma wasCalled_nil s : wasCalled [] s = true <-> callHistory s <> [].
Proof.
  unfold wasCalled. simpl. destruct (callHistory s); simpl.
  - split; [discriminate | intros H; contradiction H; reflexivity].
  - split; [discriminate | reflexivity].
Qed.

Lemma wasCalled_cons e es s :
  wasCalled (e :: es) s = true <->
  exists entry, In entry (callHistory s) /\
                to_boolean (wasCalled_callback (e :: es) entry) = true.
Proof. unfold wasCalled. simpl to_boolean. cbv zeta. apply some_true. Qed.

Lemma strict_equals_NaN v : strict_equals v (VNumber NaN) = false.
Proof. destruct v as [| |b|[|z]|s|l|f]; reflexivity. Qed.

(** On a spy that was just constructed, cleared or reset, [wasCalled]
    is false for every list of expected arguments, the empty one
    included. *)
Theorem wasCalled_false_on_fresh_history (args : list value) :
  (forall s, wasCalled args (clear s) = false /\ wasCalled args (reset s) = false) /\
  (forall h obj name w,
     MojoSpy obj name h = Constructed w -> wasCalled args (self w) = false).
Proof.
  split.
  - intros s. unfold wasCalled. destruct (to_boolean _); split; reflexivity.
  - intros h obj name w. unfold MojoSpy.
    destruct (get_property h obj name); try discriminate.
    intros [= <-]. unfold wasCalled. destruct (to_boolean _); reflexivity.
Qed.

Lemma wasCalled_false_on_fresh_history_witness :
  wasCalled [num 1; num 2] (self demo_world) = false.
Proof.
  apply (proj2 (wasCalled_false_on_fresh_history [num 1; num 2])
           demo_heap demo_object "method" demo_world).
  reflexivity.
Defined.

(** [wasCalled] only looks at which entries the history holds: if every
    entry of one history is in another, whatever is found in the first is
    found in the second.  So recording one more call can turn an answer
    from false to true and never from true to false. *)
Theorem wasCalled_monotone (args : list value) (s1 s2 : MojoSpyObject) :
  (forall entry, In entry (callHistory s1) -> In entry (callHistory s2)) ->
  wasCalled args s1 = true -> wasCalled args s2 = true.
Proof.
  intros Hsub. destruct args as [|e es].
  - rewrite !wasCalled_nil. intros Hne Hnil.
    destruct (callHistory s1) as [|x l]; [contradiction Hne; reflexivity|].
    specialize (Hsub x (or_introl eq_refl)). rewrite Hnil in Hsub. destruct Hsub.
  - rewrite !wasCalled_cons. intros (entry & Hin & Hcb).
    exists entry. split; [apply Hsub; exact Hin | exact Hcb].
Qed.

Lemma wasCalled_monotone_witness :
  wasCalled [num 1] (push_history [num 2]
     (mkSpy demo_object "method" VNull (VBool true) (VBool false) [[num 1]]))
  = true.
Proof.
  apply (wasCalled_monotone [num 1]
           (mkSpy demo_object "method" VNull (VBool true) (VBool false) [[num 1]])).
  - intros entry Hin. simpl in *. tauto.
  - reflexivity.
Defined.

(** Whenever [wasCalled] with expected arguments is true, [wasCalled]
    without arguments is true as well. *)
Theorem wasCalled_with_arguments_implies_wasCalled (args : list value)
    (s : MojoSpyObject) :
  wasCalled args s = true -> wasCalled [] s = true.
Proof.
  destruct args as [|e es]; [tauto|].
  rewrite wasCalled_cons, wasCalled_nil. intros (entry & Hin & _) Hnil.
  rewrite Hnil in Hin. destruct Hin.
Qed.

Lemma wasCalled_with_arguments_implies_wasCalled_witness :
  wasCalled [] (mkSpy demo_object "method" VNull (VBool true) (VBool false)
                      [[num 1; num 2]]) = true.
Proof.
  apply (wasCalled_with_arguments_implies_wasCalled [num 1; num 2]).
  reflexivity.
Defined.

(** A [NaN] among the expected arguments can never be found: [wasCalled]
    is then false whatever the history holds, even when the call was
    made with those very arguments. *)
Theorem wasCalled_never_finds_NaN (args : list value) (s : MojoSpyObject) :
  In (VNumber NaN) args -> wasCalled args s = false.
Proof.
  intros Hin. destruct args as [|e es]; [destruct Hin|].
  destruct (wasCalled (e :: es) s) eqn:Hw; [|reflexivity].
  apply wasCalled_cons in Hw as (entry & _ & Hcb).
  apply wasCalled_callback_true in Hcb as [_ Hall].
  apply list_elem_of_In, list_elem_of_lookup in Hin as [i Hi].
  assert (Hlt : i < length (e :: es)) by (eapply lookup_lt_Some; exact Hi).
  specialize (Hall i Hlt). unfold index at 2 in Hall. rewrite Hi in Hall.
  simpl in Hall. rewrite strict_equals_NaN in Hall. discriminate.
Qed.

Lemma wasCalled_never_finds_NaN_witness :
  wasCalled [num 1; VNumber NaN]
    (mkSpy demo_object "method" VNull (VBool true) (VBool false)
           [[num 1; VNumber NaN]]) = false.
Proof.
  apply wasCalled_never_finds_NaN. simpl. auto.
Defined.

(** A recorded call is found again by its own arguments: when they are
    not empty and none is [NaN], [wasCalled] with them is true right after
    the closure has recorded the call. *)
Theorem wasCalled_finds_recorded_call (args : list value) (w : world) :
  args <> [] ->
  Forall (fun v => v <> VNumber NaN) args ->
  to_boolean (isRecording (self w)) = true ->
  wasCalled args (self (record args w)) = true.
Proof.
  intros Hne Hnan Hrec. destruct args as [|e es]; [contradiction Hne; reflexivity|].
  rewrite record_on by exact Hrec. apply wasCalled_cons.
  exists (e :: es). split.
  - simpl. apply in_or_app. right. left. reflexivity.
  - apply wasCalled_callback_true. split; [reflexivity|].
    intros i Hi. apply strict_equals_true.
    apply lookup_lt_is_Some_2 in Hi as [v Hv].
    unfold index. rewrite Hv. simpl. split; [reflexivity|].
    rewrite Forall_forall in Hnan. apply Hnan.
    apply list_elem_of_lookup. eauto.
Qed.

Lemma wasCalled_finds_recorded_call_witness :
  wasCalled [VString "a"; VObject demo_object]
    (self (record [VString "a"; VObject demo_object] demo_world)) = true.
Proof.
  apply wasCalled_finds_recorded_call.
  - discriminate.
  - repeat constructor; discriminate.
  - reflexivity.
Defined.

Lemma strict_equals_same_type a b :
  strict_equals a b = true -> typeof a = typeof b.
Proof. intros H. apply strict_equals_true in H as [<- _]. reflexivity. Qed.

(** [wasCalled] does not coerce: an entry with an element whose type
    differs from the type of the expected argument at that position (the
    number 1 against the string '1', [null] against [undefined]) is not a
    match. *)
Theorem wasCalled_does_not_coerce (args entry : list value) (i : nat) :
  i < length args ->
  typeof (index entry i) <> typeof (index args i) ->
  to_boolean (wasCalled_callback args entry) = false.
Proof.
  intros Hi Hty.
  destruct (to_boolean (wasCalled_callback args entry)) eqn:Hcb; [|reflexivity].
  apply wasCalled_callback_true in Hcb as [_ Hall].
  contradiction Hty. apply strict_equals_same_type, Hall. exact Hi.
Qed.

Lemma wasCalled_does_not_coerce_witness :
  wasCalled [VString "1"]
    (mkSpy demo_object "method" VNull (VBool true) (VBool false) [[num 1]])
  = false.
Proof.
  unfold wasCalled. simpl to_boolean. cbv zeta. cbn [some callHistory].
  rewrite (wasCalled_does_not_coerce [VString "1"] [num 1] 0);
    [reflexivity | simpl; lia | discriminate].
Defined.
